(** * Task service: a shallow embedding of the five route handlers

    The program is an Express application with one SQLite table,

      CREATE TABLE IF NOT EXISTS tasks (
        id INTEGER PRIMARY KEY AUTOINCREMENT,
        title TEXT NOT NULL,
        description TEXT,
        completed BOOLEAN DEFAULT 0)

    and five handlers that each issue one parameterised statement and map
    the driver's callback arguments ([err], [rows], [row], [this.lastID],
    [this.changes]) to a JSON response.

    The handlers are embedded as functions [db -> db * response].  The
    table is a list of rows in rowid order together with the AUTOINCREMENT
    counter.  What the storage engine and the driver do with a statement
    (parameter binding, column affinity, the NOT NULL check, rowid
    assignment, the row count of a statement) is written out in
    [Module Sqlite]; an error raised by the engine for reasons outside
    the table (busy, I/O) is an explicit input [fault] of every driver
    call.

    Scope.  A JavaScript number is held by its exact value, an integer
    ([JNum]) or a rational that is no integer ([JReal]); the rounding of
    an id beyond 2^53 on its way into a response is not modelled, nor are
    buffers, arrays and nested objects in a request body.  [req.body] is
    an object (possibly without any field). *)

From Stdlib Require Import ZArith List String Ascii Bool Lia.
From Stdlib Require Import DecimalString DecimalZ Sorted.
From Stdlib Require Import QArith_base Qreduction.
Import ListNotations.

Local Open Scope string_scope.
Local Open Scope list_scope.
Local Open Scope Z_scope.

(** ** JavaScript values seen by the handlers *)

Module Js.

Inductive jsval : Type :=
| JUndefined
| JNull
| JBool (b : bool)
| JNum (n : Z)
| JReal (x : Q)
| JStr (s : string).

(** An object literal, as the ordered list of its own properties. *)
Definition jsobj : Type := list (string * jsval).

(** What a handler hands to [res.json]: one object or an array of objects. *)
Inductive json : Type :=
| JObj (o : jsobj)
| JArr (a : list jsobj).

Fixpoint prop (k : string) (o : jsobj) : jsval :=
  match o with
  | [] => JUndefined
  | (k', v) :: o' => if String.eqb k k' then v else prop k o'
  end.

End Js.
Import Js.

(** ** HTTP side: request body and response *)

(** [const { title, description, completed } = req.body]: a field the
    caller left out reads as [JUndefined]. *)
Record body : Type := mkBody {
  body_title : jsval;
  body_description : jsval;
  body_completed : jsval
}.

(** [res.status(s).json(p)]; [res.json(p)] alone has status 200. *)
Record response : Type := mkResponse {
  status : Z;
  payload : json
}.

Definition res_json (p : json) : response := mkResponse 200 p.
Definition res_status_json (s : Z) (p : json) : response := mkResponse s p.

(** ** The storage engine and its driver *)

Module Sqlite.

Inductive sqlval : Type :=
| SqlNull
| SqlInteger (n : Z)
| SqlReal (x : Q)
| SqlText (s : string).

Definition is_null (v : sqlval) : bool :=
  match v with SqlNull => true | _ => false end.

(** A row of table [tasks]. *)
Record task : Type := mkTask {
  task_id : Z;
  task_title : sqlval;
  task_description : sqlval;
  task_completed : sqlval
}.

(** The database file: the rows of [tasks] in rowid order, and the entry of
    [sqlite_sequence] for the table (the largest rowid handed out so far). *)
Record db : Type := mkDb {
  tasks : list task;
  sqlite_sequence : Z
}.

(** [CREATE TABLE IF NOT EXISTS]: an existing file is kept as it is. *)
Definition empty_db : db := mkDb [] 0.

Definition create_table_if_not_exists (file : option db) : db :=
  match file with
  | Some d => d
  | None => empty_db
  end.

(** Result of a driver call, as seen by its callback. *)
Inductive outcome (A : Type) : Type :=
| Failed (message : string)
| Done (a : A).
Arguments Failed {A} message.
Arguments Done {A} a.

(** The integer a rational is, when it is one. *)
Definition integer_of (x : Q) : option Z :=
  let r := Qred x in
  if (Qden r =? 1)%positive then Some (Qnum r) else None.

(** The numbers the driver binds as INTEGER: those that survive a trip
    through a 32-bit integer. *)
Definition int32 (n : Z) : bool := (- 2 ^ 31 <=? n) && (n <? 2 ^ 31).

(** The REAL values the engine turns into an INTEGER where a column or a
    comparison asks for a number: integers strictly inside the 64-bit
    range. *)
Definition int64_inside (n : Z) : bool := (- 2 ^ 63 <? n) && (n <? 2 ^ 63 - 1).

Definition bind_number (n : Z) : sqlval :=
  if int32 n then SqlInteger n else SqlReal (inject_Z n).

(** How the driver binds a JavaScript value to a [?]: [undefined] leaves
    the parameter unbound, which the engine reads as NULL; a boolean is
    bound as the integer 1 or 0; a number is bound as INTEGER when it is a
    32-bit integer and as REAL otherwise. *)
Definition bind (v : jsval) : sqlval :=
  match v with
  | JUndefined => SqlNull
  | JNull => SqlNull
  | JBool b => SqlInteger (if b then 1 else 0)
  | JNum n => bind_number n
  | JReal x =>
      match integer_of x with
      | Some n => bind_number n
      | None => SqlReal x
      end
  | JStr s => SqlText s
  end.

(** How the driver turns a column of a result row into a JavaScript
    value; INTEGER and REAL both become a number. *)
Definition js_of_sql (v : sqlval) : jsval :=
  match v with
  | SqlNull => JNull
  | SqlInteger n => JNum n
  | SqlReal x =>
      match integer_of x with
      | Some n => JNum n
      | None => JReal x
      end
  | SqlText s => JStr s
  end.

Definition js_row (r : task) : jsobj :=
  [ ("id", JNum (task_id r));
    ("title", js_of_sql (task_title r));
    ("description", js_of_sql (task_description r));
    ("completed", js_of_sql (task_completed r)) ].

(** Decimal text of an integer, as the engine writes it into a TEXT column. *)
Definition integer_text (n : Z) : string :=
  NilZero.string_of_int (Z.to_int n).

(** Largest rowid a table can hold. *)
Definition max_rowid : Z := 2 ^ 63 - 1.

Definition not_null_title : string :=
  "SQLITE_CONSTRAINT: NOT NULL constraint failed: tasks.title".
Definition database_full : string :=
  "SQLITE_FULL: database or disk is full".

Section Engine.

(** The engine's reading of a text as an integer, used wherever a TEXT
    value meets a numeric column.  The engine is not part of the
    repository; every result below holds for any such reading. *)
Variable to_integer : string -> option Z.

(** The engine's reading, as a REAL, of a text that it does not read as
    an integer but does read as a number, and the text the engine writes
    for a REAL; the results hold for any such functions too. *)
Variable to_real : string -> option Q.
Variable real_text : Q -> string.

(** A REAL where a number is asked for: an INTEGER when it is one inside
    the 64-bit range. *)
Definition real_affinity (x : Q) : sqlval :=
  match integer_of x with
  | Some n => if int64_inside n then SqlInteger n else SqlReal x
  | None => SqlReal x
  end.

(** Column affinity applied to a value on its way into the table: a
    number put into a TEXT column is stored as its text; a text put into
    the BOOLEAN column (NUMERIC affinity) is stored as the number it reads
    as, if any, and a REAL as an INTEGER when it is one. *)
Definition text_affinity (v : sqlval) : sqlval :=
  match v with
  | SqlInteger n => SqlText (integer_text n)
  | SqlReal x => SqlText (real_text x)
  | _ => v
  end.

Definition numeric_affinity (v : sqlval) : sqlval :=
  match v with
  | SqlText s =>
      match to_integer s with
      | Some n => SqlInteger n
      | None =>
          match to_real s with
          | Some x => real_affinity x
          | None => v
          end
      end
  | SqlReal x => real_affinity x
  | _ => v
  end.

(** [WHERE id = ?] for one row: the rowid against the bound value. *)
Definition id_equals (v : sqlval) (r : task) : bool :=
  match v with
  | SqlNull => false
  | SqlInteger n => task_id r =? n
  | SqlReal x =>
      match integer_of x with
      | Some n => task_id r =? n
      | None => false
      end
  | SqlText s =>
      match to_integer s with
      | Some n => task_id r =? n
      | None => false
      end
  end.

Definition largest_rowid (rows : list task) : Z :=
  fold_right Z.max 0 (map task_id rows).

(** [INSERT INTO tasks (title, description, completed) VALUES (?, ?, ?)].
    AUTOINCREMENT: the new rowid is one more than the largest rowid the
    table has ever held; when that was the largest possible rowid the
    insert is refused.  The result is the new rowid. *)
Definition sql_insert (d : db) (title description completed : sqlval)
  : db * outcome Z :=
  let top := Z.max (sqlite_sequence d) (largest_rowid (tasks d)) in
  if max_rowid <=? top then (d, Failed database_full)
  else if is_null (text_affinity title) then (d, Failed not_null_title)
  else
    let rowid := top + 1 in
    let r := mkTask rowid (text_affinity title) (text_affinity description)
                    (numeric_affinity completed) in
    (mkDb (tasks d ++ [r]) rowid, Done rowid).

(** [UPDATE tasks SET title = ?, description = ?, completed = ? WHERE id = ?].
    The NOT NULL check runs for each row the WHERE clause selects; when it
    fails the statement is undone.  The result is the number of rows
    changed. *)
Definition set_columns (title description completed : sqlval) (r : task)
  : task :=
  mkTask (task_id r) (text_affinity title) (text_affinity description)
         (numeric_affinity completed).

Definition sql_update (d : db) (title description completed idv : sqlval)
  : db * outcome Z :=
  let hit := filter (id_equals idv) (tasks d) in
  match hit with
  | [] => (d, Done 0)
  | _ :: _ =>
      if is_null (text_affinity title) then (d, Failed not_null_title)
      else
        (mkDb (map (fun r => if id_equals idv r
                             then set_columns title description completed r
                             else r) (tasks d))
              (sqlite_sequence d),
         Done (Z.of_nat (List.length hit)))
  end.

(** [DELETE FROM tasks WHERE id = ?]; the sequence entry is left alone. *)
Definition sql_delete (d : db) (idv : sqlval) : db * outcome Z :=
  let hit := filter (id_equals idv) (tasks d) in
  (mkDb (filter (fun r => negb (id_equals idv r)) (tasks d))
        (sqlite_sequence d),
   Done (Z.of_nat (List.length hit))).

(** [SELECT * FROM tasks] and [SELECT * FROM tasks WHERE id = ?]. *)
Definition sql_select_all (d : db) : list task := tasks d.

Definition sql_select_by_id (d : db) (idv : sqlval) : list task :=
  filter (id_equals idv) (tasks d).

(** *** Driver calls

    [fault] is the error the engine raises for reasons outside the table;
    the statement then has no effect. *)

(** [db.all(sql, [], cb)]: [cb(err, rows)]. *)
Definition db_all (fault : option string) (d : db) : outcome (list jsobj) :=
  match fault with
  | Some e => Failed e
  | None => Done (map js_row (sql_select_all d))
  end.

(** [db.get(sql, [id], cb)]: [cb(err, row)], [row] undefined when the
    result is empty. *)
Definition db_get (fault : option string) (d : db) (params : list jsval)
  : outcome (option jsobj) :=
  match fault with
  | Some e => Failed e
  | None =>
      let idv := bind (nth 0 params JUndefined) in
      Done (option_map js_row (hd_error (sql_select_by_id d idv)))
  end.

(** [db.run(INSERT ..., params, cb)]: [cb(err)] with [this.lastID]. *)
Definition db_run_insert (fault : option string) (d : db)
    (params : list jsval) : db * outcome Z :=
  match fault with
  | Some e => (d, Failed e)
  | None =>
      sql_insert d (bind (nth 0 params JUndefined))
                   (bind (nth 1 params JUndefined))
                   (bind (nth 2 params JUndefined))
  end.

(** [db.run(UPDATE ..., params, cb)]: [cb(err)] with [this.changes]. *)
Definition db_run_update (fault : option string) (d : db)
    (params : list jsval) : db * outcome Z :=
  match fault with
  | Some e => (d, Failed e)
  | None =>
      sql_update d (bind (nth 0 params JUndefined))
                   (bind (nth 1 params JUndefined))
                   (bind (nth 2 params JUndefined))
                   (bind (nth 3 params JUndefined))
  end.

(** [db.run(DELETE ..., id, cb)]: [cb(err)] with [this.changes]. *)
Definition db_run_delete (fault : option string) (d : db) (param : jsval)
  : db * outcome Z :=
  match fault with
  | Some e => (d, Failed e)
  | None => sql_delete d (bind param)
  end.

End Engine.

End Sqlite.
Import Sqlite.

(** ** The route handlers *)

Definition not_found : json := JObj [("message", JStr "Tarea no encontrada")].
Definition deleted : json :=
  JObj [("message", JStr "Tarea eliminada correctamente")].
Definition error_of (message : string) : json :=
  JObj [("error", JStr message)].

Section Handlers.

Variable to_integer : string -> option Z.
Variable to_real : string -> option Q.
Variable real_text : Q -> string.

(** [app.get('/tasks')] *)
Definition get_tasks (fault : option string) (d : db) : db * response :=
  match db_all fault d with
  | Failed message => (d, res_status_json 500 (error_of message))
  | Done rows => (d, res_json (JArr rows))
  end.

(** [app.post('/tasks')] *)
Definition post_tasks (fault : option string) (d : db) (b : body)
  : db * response :=
  let title := body_title b in
  let description := body_description b in
  let params := [title; description; JBool false] in
  match db_run_insert to_integer to_real real_text fault d params with
  | (d', Failed message) => (d', res_status_json 500 (error_of message))
  | (d', Done lastID) =>
      (d', res_json (JObj [ ("id", JNum lastID);
                            ("title", title);
                            ("description", description);
                            ("completed", JBool false) ]))
  end.

(** [app.get('/tasks/:id')]; [id] is the path segment, a string. *)
Definition get_tasks_id (fault : option string) (d : db) (id : string)
  : db * response :=
  match db_get to_integer fault d [JStr id] with
  | Failed message => (d, res_status_json 500 (error_of message))
  | Done None => (d, res_status_json 404 not_found)
  | Done (Some row) => (d, res_json (JObj row))
  end.

(** [app.put('/tasks/:id')] *)
Definition put_tasks_id (fault : option string) (d : db) (id : string)
    (b : body) : db * response :=
  let title := body_title b in
  let description := body_description b in
  let completed := body_completed b in
  let params := [title; description; completed; JStr id] in
  match db_run_update to_integer to_real real_text fault d params with
  | (d', Failed message) => (d', res_status_json 500 (error_of message))
  | (d', Done changes) =>
      if changes =? 0 then (d', res_status_json 404 not_found)
      else
        (d', res_json (JObj [ ("id", JStr id);
                              ("title", title);
                              ("description", description);
                              ("completed", completed) ]))
  end.

(** [app.delete('/tasks/:id')] *)
Definition delete_tasks_id (fault : option string) (d : db) (id : string)
  : db * response :=
  match db_run_delete to_integer fault d (JStr id) with
  | (d', Failed message) => (d', res_status_json 500 (error_of message))
  | (d', Done changes) =>
      if changes =? 0 then (d', res_status_json 404 not_found)
      else (d', res_json deleted)
  end.

(** *** The service as a transition system *)

Inductive request : Type :=
| GET_tasks
| POST_tasks (b : body)
| GET_tasks_id (id : string)
| PUT_tasks_id (id : string) (b : body)
| DELETE_tasks_id (id : string).

Definition handle (d : db) (fault : option string) (rq : request)
  : db * response :=
  match rq with
  | GET_tasks => get_tasks fault d
  | POST_tasks b => post_tasks fault d b
  | GET_tasks_id id => get_tasks_id fault d id
  | PUT_tasks_id id b => put_tasks_id fault d id b
  | DELETE_tasks_id id => delete_tasks_id fault d id
  end.

(** One request after the other on the same database; the trace pairs each
    request with its response. *)
Fixpoint serve (d : db) (rqs : list (option string * request))
  : db * list (request * response) :=
  match rqs with
  | [] => (d, [])
  | (fault, rq) :: rest =>
      let (d1, rs) := handle d fault rq in
      let (d2, tr) := serve d1 rest in
      (d2, (rq, rs) :: tr)
  end.

(** The id a create handed out, read off its response. *)
Definition created_id (ev : request * response) : option Z :=
  match ev with
  | (POST_tasks _, mkResponse 200 (JObj (("id", JNum n) :: _))) => Some n
  | _ => None
  end.

Fixpoint created_ids (tr : list (request * response)) : list Z :=
  match tr with
  | [] => []
  | ev :: tr' =>
      match created_id ev with
      | Some n => n :: created_ids tr'
      | None => created_ids tr'
      end
  end.

End Handlers.

(** ** Concrete readings for the runs below

    [decimal_integer] reads plain decimal literals with an optional minus
    sign, which is how a client writes an id into the path.  It is not
    the whole of the engine's reading (the engine also reads texts such as
    "+1", " 1" or "1.0" as 1): the runs use it at plain literals and at
    texts that are no number, where the two agree, and no result depends
    on it. *)
Definition decimal_integer (s : string) : option Z :=
  option_map Z.of_int (NilZero.int_of_string s).

(** The runs put no text with a fraction into the completed column, and
    the only REAL written as a text is an integer below 10^15, which the
    engine writes with one decimal. *)
Definition no_fraction (s : string) : option Q := None.

Definition integral_real_text (x : Q) : string :=
  match integer_of x with
  | Some n => integer_text n ++ ".0"
  | None => ""
  end.

(** The scenario of the specification's example, run on an empty file. *)
Definition buy_milk : body := mkBody (JStr "Buy milk") JUndefined JUndefined.
Definition buy_milk_2 : body :=
  mkBody (JStr "Buy milk") (JStr "2%") (JBool true).

Definition scenario : list (option string * request) :=
  [ (None, POST_tasks buy_milk);
    (None, GET_tasks_id "1");
    (None, PUT_tasks_id "1" buy_milk_2);
    (None, GET_tasks_id "1");
    (None, DELETE_tasks_id "1");
    (None, GET_tasks_id "1");
    (None, POST_tasks buy_milk) ].

(** A database holding the one task of that scenario after its update. *)
Definition one_task : db :=
  mkDb [mkTask 1 (SqlText "Buy milk") (SqlText "2%") (SqlInteger 1)] 1.

(** The id columns of the table, in storage order. *)
Definition ids (d : db) : list Z := map task_id (tasks d).



(** The invariant of a database file that only this service has written:
    rows lie in increasing rowid order and the sequence entry, never
    negative, is at least every rowid present. *)
Definition well_formed (d : db) : Prop :=
  StronglySorted Z.lt (ids d) /\
  Forall (fun n => n <= sqlite_sequence d) (ids d) /\
  0 <= sqlite_sequence d.

(** The store can still hand out a rowid. *)
Definition has_room (d : db) : Prop :=
  Z.max (sqlite_sequence d) (largest_rowid (tasks d)) < max_rowid.

(** [WHERE id = ?] selects at least one row of the table. *)
Definition present (to_integer : string -> option Z) (d : db) (id : string)
  : bool :=
  existsb (id_equals to_integer (SqlText id)) (tasks d).

(** The NOT NULL rule of the schema, as a property of the stored rows. *)
Definition titled (d : db) : Prop :=
  Forall (fun r => is_null (task_title r) = false) (tasks d).

(** * Properties *)

Section Properties.

Variable to_integer : string -> option Z.
Variable to_real : string -> option Q.
Variable real_text : Q -> string.

(** ** Facts about the engine *)

Lemma is_null_text_affinity v : is_null (text_affinity real_text v) = is_null v.
Proof. destruct v; reflexivity. Qed.

Lemma id_equals_text p r :
  id_equals to_integer (SqlText p) r = true <->
  to_integer p = Some (task_id r).
Proof.
  unfold id_equals. destruct (to_integer p) as [n|].
  - rewrite Z.eqb_eq.
    split; [intros ->; reflexivity | intros [= ->]; reflexivity].
  - split; discriminate.
Qed.

Lemma id_equals_denotes p n r :
  to_integer p = Some n ->
  id_equals to_integer (SqlText p) r = (task_id r =? n).
Proof. intros H. unfold id_equals. rewrite H. reflexivity. Qed.


Lemma filter_none {A} (f : A -> bool) (l : list A) :
  (forall x, In x l -> f x = false) -> filter f l = [].
Proof.
  induction l as [|x l IH]; simpl; intros H; [reflexivity|].
  rewrite (H x (or_introl eq_refl)). apply IH. intros y Hy. apply H. now right.
Qed.

Lemma filter_some {A} (f : A -> bool) (l : list A) x :
  In x l -> f x = true -> filter f l <> [].
Proof.
  intros Hin Hf Hnil.
  assert (In x (filter f l)) as H by (apply filter_In; split; assumption).
  rewrite Hnil in H. exact H.
Qed.

(** What an insert does when it is accepted. *)
Lemma sql_insert_done d t s c :
  has_room d -> is_null t = false ->
  let rowid := Z.max (sqlite_sequence d) (largest_rowid (tasks d)) + 1 in
  sql_insert to_integer to_real real_text d t s c =
    (mkDb (tasks d ++ [mkTask rowid (text_affinity real_text t)
                         (text_affinity real_text s)
                         (numeric_affinity to_integer to_real c)]) rowid,
     Done rowid).
Proof.
  unfold has_room, sql_insert. intros Hroom Ht.
  destruct (Z.leb_spec max_rowid
              (Z.max (sqlite_sequence d) (largest_rowid (tasks d)))); [lia|].
  rewrite is_null_text_affinity, Ht. reflexivity.
Qed.

(** ** The list operation *)


(** ** Create *)




(** A create without a title, whatever else happens. *)
Lemma post_without_title (fault : option string) (d : db) (b : body) :
  is_null (bind (body_title b)) = true ->
  exists e,
    post_tasks to_integer to_real real_text fault d b =
      (d, mkResponse 500 (JObj [("error", JStr e)])).
Proof.
  intros Ht. unfold post_tasks, db_run_insert. cbn [nth].
  destruct fault as [e|]; [exists e; reflexivity|].
  unfold sql_insert. rewrite is_null_text_affinity, Ht.
  destruct (max_rowid <=? _);
    [exists database_full | exists not_null_title]; reflexivity.
Qed.

(** C2 (as amended). A create that supplies a title, on a table that can
    still hand out a rowid and with no engine error, appends one row whose
    completed column is 0, the table's false, and answers with exactly
    the new id, the submitted title and description as they came in, and
    [completed: false]; the answer is built from the request, not from
    the stored row.  A create without a title creates nothing and is
    answered 500.  The body's own completed field plays no part in any
    create: replacing it by any other value gives the same database and
    the same response. *)
Theorem create_echoes_and_initialises (d : db) (b : body) :
  let rowid := Z.max (sqlite_sequence d) (largest_rowid (tasks d)) + 1 in
  let r := mkTask rowid (text_affinity real_text (bind (body_title b)))
                  (text_affinity real_text (bind (body_description b)))
                  (SqlInteger 0) in
  (is_null (bind (body_title b)) = false -> has_room d ->
   post_tasks to_integer to_real real_text None d b =
     (mkDb (tasks d ++ [r]) rowid,
      mkResponse 200 (JObj [ ("id", JNum rowid);
                             ("title", body_title b);
                             ("description", body_description b);
                             ("completed", JBool false) ]))) /\
  (is_null (bind (body_title b)) = true ->
   forall fault, exists e,
     post_tasks to_integer to_real real_text fault d b =
       (d, mkResponse 500 (JObj [("error", JStr e)]))) /\
  (forall fault c,
     post_tasks to_integer to_real real_text fault d
       (mkBody (body_title b) (body_description b) c) =
     post_tasks to_integer to_real real_text fault d b).
Proof.
  intros rowid r. split; [|split; [|reflexivity]].
  - intros Ht Hroom. unfold post_tasks, db_run_insert. cbn [nth].
    rewrite (sql_insert_done d _ _ _ Hroom Ht). reflexivity.
  - intros Ht fault. exact (post_without_title fault d b Ht).
Qed.

(** C4 (as amended). The handler does not look at the title, but the
    table does: a create whose title is absent or null is refused by the
    engine, the response is status 500 with the engine's message, and the
    database is left as it was; when nothing else is wrong the message is
    the NOT NULL failure on [tasks.title]. *)
Theorem create_without_title_is_refused (fault : option string) (d : db)
    (b : body) :
  is_null (bind (body_title b)) = true ->
  exists e,
    post_tasks to_integer to_real real_text fault d b =
      (d, mkResponse 500 (JObj [("error", JStr e)])) /\
    (fault = None -> has_room d -> e = not_null_title).
Proof.
  intros Ht. unfold post_tasks, db_run_insert. cbn [nth].
  destruct fault as [e|].
  - exists e. split; [reflexivity | discriminate].
  - unfold sql_insert, has_room. rewrite is_null_text_affinity, Ht.
    destruct (Z.leb_spec max_rowid
                (Z.max (sqlite_sequence d) (largest_rowid (tasks d)))).
    + exists database_full. split; [reflexivity | intros _ H'; lia].
    + exists not_null_title. split; reflexivity.
Qed.

(** ** Update *)

Lemma db_eta d : mkDb (tasks d) (sqlite_sequence d) = d.
Proof. destruct d; reflexivity. Qed.

Lemma filter_all {A} (f : A -> bool) (l : list A) :
  (forall x, In x l -> f x = true) -> filter f l = l.
Proof.
  induction l as [|x l IH]; simpl; intros H; [reflexivity|].
  rewrite (H x (or_introl eq_refl)). f_equal. apply IH.
  intros y Hy. apply H. now right.
Qed.

Lemma sql_update_miss d t s c v :
  filter (id_equals to_integer v) (tasks d) = [] ->
  sql_update to_integer to_real real_text d t s c v = (d, Done 0).
Proof. unfold sql_update. intros ->. reflexivity. Qed.

Lemma sql_update_refused d t s c v :
  filter (id_equals to_integer v) (tasks d) <> [] -> is_null t = true ->
  sql_update to_integer to_real real_text d t s c v
  = (d, Failed not_null_title).
Proof.
  unfold sql_update. intros Hhit Ht.
  destruct (filter _ _); [contradiction|].
  rewrite is_null_text_affinity, Ht. reflexivity.
Qed.

Lemma sql_update_hit d t s c v :
  filter (id_equals to_integer v) (tasks d) <> [] -> is_null t = false ->
  exists n,
    0 < n /\
    sql_update to_integer to_real real_text d t s c v =
      (mkDb (map (fun r => if id_equals to_integer v r
                           then set_columns to_integer to_real real_text
                                  t s c r
                           else r)
                 (tasks d))
            (sqlite_sequence d),
       Done n).
Proof.
  unfold sql_update. intros Hhit Ht.
  destruct (filter _ _) as [|x hit]; [contradiction|].
  rewrite is_null_text_affinity, Ht.
  exists (Z.of_nat (List.length (x :: hit))). split; [simpl; lia | reflexivity].
Qed.

(** An update never touches the id column, whatever it does. *)
Lemma sql_update_keeps_ids d t s c v d' o :
  sql_update to_integer to_real real_text d t s c v = (d', o) ->
  ids d' = ids d /\
  sqlite_sequence d' = sqlite_sequence d /\
  (forall i r, nth_error (tasks d) i = Some r ->
               id_equals to_integer v r = false ->
               nth_error (tasks d') i = Some r).
Proof.
  unfold sql_update.
  destruct (filter _ _) as [|x hit].
  { intros [= <- _]. auto. }
  destruct (is_null _).
  { intros [= <- _]. auto. }
  intros [= <- _]. unfold ids. cbn [tasks sqlite_sequence].
  split; [|split; [reflexivity|]].
  - rewrite map_map. apply map_ext. intros r.
    destruct (id_equals to_integer v r); reflexivity.
  - intros i r Hi Hr. rewrite nth_error_map, Hi. cbn. rewrite Hr. reflexivity.
Qed.


Lemma id_equals_same_id v x y :
  task_id x = task_id y ->
  id_equals to_integer v x = id_equals to_integer v y.
Proof. unfold id_equals. intros ->. reflexivity. Qed.





(** The frame of an update, through the handler. *)
Lemma put_keeps_ids (fault : option string) (d : db) (id : string)
    (b : body) :
  let d' := fst (put_tasks_id to_integer to_real real_text fault d id b) in
  ids d' = ids d /\
  sqlite_sequence d' = sqlite_sequence d /\
  (forall i r, nth_error (tasks d) i = Some r ->
               to_integer id <> Some (task_id r) ->
               nth_error (tasks d') i = Some r).
Proof.
  unfold put_tasks_id, db_run_update. cbn [nth bind].
  destruct fault as [e|]; [cbn; auto|].
  destruct (sql_update _ _ _ _ _ _) as [d1 o] eqn:Hupd.
  apply sql_update_keeps_ids in Hupd. destruct Hupd as (Hids & Hseq & Hrows).
  assert (forall i r, nth_error (tasks d) i = Some r ->
                      to_integer id <> Some (task_id r) ->
                      nth_error (tasks d1) i = Some r) as Hrows'.
  { intros i r Hi Hne. apply Hrows; [exact Hi|].
    destruct (id_equals to_integer (SqlText id) r) eqn:E; [|reflexivity].
    apply id_equals_text in E. contradiction. }
  destruct o as [e|n]; [cbn; auto|].
  destruct (n =? 0); cbn; auto.
Qed.

(** C10. Whatever the request and whether or not the engine fails, an
    update leaves the id column of the table as it was, row for row, so no
    task appears or disappears, and the sequence entry too; every row
    whose id the path does not select is found unchanged at its place,
    and a row the path does select keeps its id. *)
Theorem update_frame (fault : option string) (d : db) (id : string)
    (b : body) :
  let d' := fst (put_tasks_id to_integer to_real real_text fault d id b) in
  ids d' = ids d /\
  sqlite_sequence d' = sqlite_sequence d /\
  (forall i r, nth_error (tasks d) i = Some r ->
               to_integer id <> Some (task_id r) ->
               nth_error (tasks d') i = Some r) /\
  (forall i r, nth_error (tasks d) i = Some r ->
               exists r', nth_error (tasks d') i = Some r' /\
                          task_id r' = task_id r).
Proof.
  intros d'. destruct (put_keeps_ids fault d id b) as (Hids & Hseq & Hrows).
  fold d' in Hids, Hseq, Hrows.
  split; [exact Hids|]. split; [exact Hseq|]. split; [exact Hrows|].
  intros i r Hi. unfold ids in Hids.
  assert (nth_error (map task_id (tasks d')) i = Some (task_id r)) as H
    by (rewrite Hids, nth_error_map, Hi; reflexivity).
  rewrite nth_error_map in H.
  destruct (nth_error (tasks d') i) as [r'|]; [|discriminate].
  exists r'. split; [reflexivity|]. cbn in H. congruence.
Qed.

(** ** Delete and the not-found outcome *)

Lemma no_match_filter d id :
  Forall (fun r => to_integer id <> Some (task_id r)) (tasks d) ->
  filter (id_equals to_integer (SqlText id)) (tasks d) = [].
Proof.
  intros H. apply filter_none. intros r Hr.
  rewrite Forall_forall in H. specialize (H r Hr).
  destruct (id_equals to_integer (SqlText id) r) eqn:E; [|reflexivity].
  apply id_equals_text in E. contradiction.
Qed.

Lemma sql_delete_miss d v :
  filter (id_equals to_integer v) (tasks d) = [] ->
  sql_delete to_integer d v = (d, Done 0).
Proof.
  intros H. unfold sql_delete. rewrite H. cbn [List.length Z.of_nat].
  rewrite filter_all; [rewrite db_eta; reflexivity|].
  intros r Hr. destruct (id_equals to_integer v r) eqn:E; [|reflexivity].
  exfalso. exact (filter_some _ _ r Hr E H).
Qed.

(** C5. When no row of the table has the id of the path, the select finds
    no row and the update and the delete change zero rows, and each of the
    three handlers answers 404 with the fixed message, whatever the body of
    the update; the database is left as it was.  A 500 is returned only
    when the engine itself raises an error, and then it carries that
    error's message: the two outcomes never coincide. *)
Theorem missing_id_is_not_found (fault : option string) (d : db)
    (id : string) (b : body) :
  Forall (fun r => to_integer id <> Some (task_id r)) (tasks d) ->
  let answer :=
    match fault with
    | None => mkResponse 404 (JObj [("message", JStr "Tarea no encontrada")])
    | Some e => mkResponse 500 (JObj [("error", JStr e)])
    end in
  (db_get to_integer None d [JStr id] = Done None /\
   db_run_update to_integer to_real real_text None d
     [body_title b; body_description b; body_completed b; JStr id]
     = (d, Done 0) /\
   db_run_delete to_integer None d (JStr id) = (d, Done 0)) /\
  get_tasks_id to_integer fault d id = (d, answer) /\
  put_tasks_id to_integer to_real real_text fault d id b = (d, answer) /\
  delete_tasks_id to_integer fault d id = (d, answer).
Proof.
  intros Hmiss answer. pose proof (no_match_filter d id Hmiss) as Hnone.
  assert (db_get to_integer None d [JStr id] = Done None) as Hget.
  { unfold db_get, sql_select_by_id. cbn [nth bind]. rewrite Hnone.
    reflexivity. }
  assert (db_run_update to_integer to_real real_text None d
            [body_title b; body_description b; body_completed b; JStr id]
          = (d, Done 0)) as Hupd.
  { unfold db_run_update. cbn [nth bind]. apply sql_update_miss, Hnone. }
  assert (db_run_delete to_integer None d (JStr id) = (d, Done 0)) as Hdel.
  { unfold db_run_delete. cbn [bind]. apply sql_delete_miss, Hnone. }
  split; [auto|]. subst answer. destruct fault as [e|].
  - repeat split.
  - unfold get_tasks_id, put_tasks_id, delete_tasks_id.
    cbv zeta. rewrite Hget, Hupd, Hdel. repeat split.
Qed.

(** C6. Deleting a task that is in the table, by a path the engine reads
    as its id, answers 200 with the confirmation message and removes the
    row for good: afterwards the table is the old one without the rows of
    that id, a read of the id answers 404, and no entry of the list result
    carries the id. *)
Theorem delete_removes_task (d : db) (r : task) (p : string) :
  In r (tasks d) -> to_integer p = Some (task_id r) ->
  exists d',
    delete_tasks_id to_integer None d p =
      (d', mkResponse 200
             (JObj [("message", JStr "Tarea eliminada correctamente")])) /\
    tasks d' = filter (fun x => negb (task_id x =? task_id r)) (tasks d) /\
    get_tasks_id to_integer None d' p =
      (d', mkResponse 404 (JObj [("message", JStr "Tarea no encontrada")])) /\
    exists rows,
      get_tasks None d' = (d', mkResponse 200 (JArr rows)) /\
      (List.length rows < List.length (tasks d))%nat /\
      forall o, In o rows -> prop "id" o <> JNum (task_id r).
Proof.
  intros Hin Hp.
  assert (id_equals to_integer (SqlText p) r = true) as Hr
    by (apply id_equals_text; exact Hp).
  pose proof (filter_some _ _ r Hin Hr) as Hhit.
  assert (filter (fun x => negb (id_equals to_integer (SqlText p) x)) (tasks d)
          = filter (fun x => negb (task_id x =? task_id r)) (tasks d)) as Hrest.
  { apply filter_ext. intros x.
    rewrite (id_equals_denotes p (task_id r) x Hp). reflexivity. }
  eexists. split; [|split; [|split]].
  - unfold delete_tasks_id, db_run_delete, sql_delete. cbn [bind].
    destruct (filter (id_equals to_integer (SqlText p)) (tasks d)) as [|x hit];
      [contradiction|].
    cbn [List.length]. rewrite Hrest.
    destruct (Z.eqb_spec (Z.of_nat (S (List.length hit))) 0); [lia|].
    reflexivity.
  - reflexivity.
  - unfold get_tasks_id, db_get, sql_select_by_id. cbn [nth bind tasks].
    rewrite filter_none; [reflexivity|].
    intros x Hx. apply filter_In in Hx. destruct Hx as [_ Hx].
    rewrite (id_equals_denotes p (task_id r) x Hp).
    destruct (task_id x =? task_id r); [discriminate | reflexivity].
  - eexists. split; [reflexivity|]. cbn [tasks sql_select_all]. split.
    + rewrite length_map.
      assert (forall l : list task, In r l ->
                (List.length
                   (filter (fun x => negb (task_id x =? task_id r)%Z) l)
                 < List.length l)%nat) as Hlen.
      { induction l as [|x l IH]; [easy|]. intros Hl. cbn [filter List.length].
        destruct (Z.eqb_spec (task_id x) (task_id r)) as [E|E]; cbn [negb].
        - pose proof (filter_length_le
                        (fun x => negb (task_id x =? task_id r)) l). lia.
        - destruct Hl as [->|Hl]; [congruence|].
          specialize (IH Hl). cbn [List.length]. lia. }
      specialize (Hlen (tasks d) Hin). lia.
    + intros o Ho. apply in_map_iff in Ho. destruct Ho as (x & <- & Hx).
      apply filter_In in Hx. destruct Hx as [_ Hx]. cbn.
      intros [= E]. rewrite E, Z.eqb_refl in Hx. discriminate.
Qed.

(** ** Identifiers over a run of the service *)

Lemma sorted_snoc l n :
  StronglySorted Z.lt l -> Forall (fun m => m < n) l ->
  StronglySorted Z.lt (l ++ [n]).
Proof.
  induction 1 as [|a l Hl IH Ha]; intros Hn; cbn.
  - repeat constructor.
  - inversion Hn as [|? ? Han Hln]; subst. constructor; [auto|].
    apply Forall_app. split; [exact Ha | repeat constructor; exact Han].
Qed.

Lemma sorted_filter_ids (f : task -> bool) rows :
  StronglySorted Z.lt (map task_id rows) ->
  StronglySorted Z.lt (map task_id (filter f rows)).
Proof.
  induction rows as [|x rows IH]; cbn; [auto|].
  intros H. apply StronglySorted_inv in H. destruct H as [Hs Hx].
  destruct (f x); cbn; [|auto]. constructor; [auto|].
  rewrite Forall_forall in *. intros n Hn. apply Hx.
  apply in_map_iff in Hn. destruct Hn as (y & <- & Hy).
  apply in_map. apply filter_In in Hy. tauto.
Qed.

Lemma sorted_NoDup l : StronglySorted Z.lt l -> NoDup l.
Proof.
  induction 1 as [|a l Hl IH Ha]; constructor; [|exact IH].
  intros Hin. rewrite Forall_forall in Ha. specialize (Ha a Hin). lia.
Qed.

Lemma well_formed_largest d :
  well_formed d -> largest_rowid (tasks d) <= sqlite_sequence d.
Proof.
  intros (_ & Hle & H0). unfold ids in Hle. unfold largest_rowid.
  induction (tasks d) as [|x rows IH]; cbn in *; [exact H0|].
  inversion Hle as [|? ? Hx Hrest]; subst. specialize (IH Hrest). lia.
Qed.

(** Closes a case of [handle_step] in which the handler hands back a
    database [H] is about and its response is not that of a create. *)
Ltac no_new_id H :=
  cbn [fst snd];
  split; [exact H|]; split; [cbn; lia|]; split; [discriminate | auto].

(** What one request does to the identifiers. *)
Lemma handle_step d fault rq :
  well_formed d ->
  let d' := fst (handle to_integer to_real real_text d fault rq) in
  let rs := snd (handle to_integer to_real real_text d fault rq) in
  well_formed d' /\
  sqlite_sequence d <= sqlite_sequence d' /\
  (forall n, created_id (rq, rs) = Some n ->
             n = sqlite_sequence d + 1 /\ sqlite_sequence d' = n) /\
  (forall x, In x (ids d') ->
             In x (ids d) \/ created_id (rq, rs) = Some x).
Proof.
  intros Hwf. pose proof (well_formed_largest d Hwf) as Hlarge.
  pose proof Hwf as (Hsorted & Hle & H0).
  destruct rq as [|b|id|id b|id]; cbn [handle].
  - (* list *)
    unfold get_tasks. destruct (db_all fault d); no_new_id Hwf.
  - (* create *)
    unfold post_tasks, db_run_insert. cbn [nth].
    destruct fault as [e|]; [no_new_id Hwf|].
    unfold sql_insert.
    destruct (max_rowid <=? _); [no_new_id Hwf|].
    destruct (is_null _); [no_new_id Hwf|].
    cbn [fst snd].
    rewrite (Z.max_l _ _ Hlarge). set (n := sqlite_sequence d + 1).
    split; [|split; [cbn; lia|split]].
    + unfold well_formed, ids. cbn [tasks sqlite_sequence].
      rewrite map_app. cbn [map task_id]. fold (ids d).
      split; [|split; [|lia]].
      * apply sorted_snoc; [exact Hsorted|].
        eapply Forall_impl; [|exact Hle]. cbn. intros; lia.
      * apply Forall_app. split.
        -- eapply Forall_impl; [|exact Hle]. cbn. intros; lia.
        -- repeat constructor. lia.
    + cbn. intros m [= <-]. split; reflexivity.
    + intros x. unfold ids. cbn [tasks]. rewrite map_app, in_app_iff.
      cbn. intros [H|[<-|[]]]; [left; exact H | right; reflexivity].
  - (* read *)
    unfold get_tasks_id.
    destruct (db_get to_integer fault d [JStr id]) as [e|[row|]];
      no_new_id Hwf.
  - (* update *)
    unfold put_tasks_id, db_run_update. cbn [nth bind].
    destruct fault as [e|]; [no_new_id Hwf|].
    destruct (sql_update _ _ _ _ _ _) as [d1 o] eqn:Hupd.
    apply sql_update_keeps_ids in Hupd. destruct Hupd as (Hids & Hseq & _).
    assert (well_formed d1) as Hwf1
      by (unfold well_formed; rewrite Hids, Hseq; exact Hwf).
    assert (forall x, In x (ids d1) -> In x (ids d)) as Hsub
      by (rewrite Hids; auto).
    destruct o as [e|n]; [|destruct (n =? 0)]; no_new_id Hwf1.
  - (* delete *)
    unfold delete_tasks_id, db_run_delete, sql_delete. cbn [bind].
    destruct fault as [e|]; [no_new_id Hwf|].
    set (keep := fun r => negb (id_equals to_integer (SqlText id) r)).
    assert (well_formed (mkDb (filter keep (tasks d)) (sqlite_sequence d)))
      as Hwf1.
    { unfold well_formed, ids. cbn [tasks sqlite_sequence].
      split; [apply sorted_filter_ids; exact Hsorted|]. split; [|exact H0].
      rewrite Forall_forall in *. intros n Hn. apply Hle.
      apply in_map_iff in Hn. destruct Hn as (y & <- & Hy).
      apply in_map. apply filter_In in Hy. tauto. }
    assert (forall x, In x (ids (mkDb (filter keep (tasks d))
                                   (sqlite_sequence d))) -> In x (ids d))
      as Hsub.
    { unfold ids. cbn [tasks]. intros x Hx.
      apply in_map_iff in Hx. destruct Hx as (y & <- & Hy).
      apply in_map. apply filter_In in Hy. tauto. }
    cbv beta iota zeta.
    match goal with |- context [?c =? 0] => destruct (c =? 0) end;
      no_new_id Hwf1.
Qed.

(** The same over a whole run. *)
Lemma serve_invariant rqs : forall d,
  well_formed d ->
  let d' := fst (serve to_integer to_real real_text d rqs) in
  let tr := snd (serve to_integer to_real real_text d rqs) in
  well_formed d' /\
  sqlite_sequence d <= sqlite_sequence d' /\
  StronglySorted Z.lt (created_ids tr) /\
  Forall (fun n => sqlite_sequence d < n <= sqlite_sequence d')
         (created_ids tr) /\
  (forall x, In x (ids d') -> In x (ids d) \/ In x (created_ids tr)).
Proof.
  induction rqs as [|[fault rq] rest IH]; intros d Hwf; cbn [serve].
  - cbn. split; [exact Hwf|]. split; [lia|]. repeat constructor. auto.
  - pose proof (handle_step d fault rq Hwf) as Hstep. cbv zeta in Hstep.
    destruct (handle to_integer to_real real_text d fault rq) as [d1 rs]. cbn [fst snd] in Hstep.
    destruct Hstep as (Hwf1 & Hseq1 & Hnew & Hin1).
    specialize (IH d1 Hwf1). cbv zeta in IH.
    destruct (serve to_integer to_real real_text d1 rest) as [d2 tr]. cbn [fst snd] in IH |- *.
    destruct IH as (Hwf2 & Hseq2 & Hsorted & Hrange & Hin2).
    split; [exact Hwf2|]. split; [lia|]. cbn [created_ids].
    destruct (created_id (rq, rs)) as [n|] eqn:Hc.
    + destruct (Hnew n eq_refl) as [Hn Hn1].
      split; [|split].
      * constructor; [exact Hsorted|].
        eapply Forall_impl; [|exact Hrange]. cbn. intros; lia.
      * constructor; [lia|].
        eapply Forall_impl; [|exact Hrange]. cbn. intros; lia.
      * intros x Hx. destruct (Hin2 x Hx) as [H|H]; [|right; right; exact H].
        destruct (Hin1 x H) as [H'|[= H']]; [left; exact H'|].
        right; left; exact H'.
    + split; [exact Hsorted|]. split.
      * eapply Forall_impl; [|exact Hrange]. cbn. intros; lia.
      * intros x Hx. destruct (Hin2 x Hx) as [H|H]; [|right; exact H].
        destruct (Hin1 x H) as [H'|H']; [left; exact H' | discriminate].
Qed.

(** C8. Start from a database that only this service has written and let
    it serve any sequence of requests.  Then: the ids of the rows held at
    the end are pairwise different; the ids handed out by the creates of
    the run are strictly increasing in the order of the creates, and each
    is larger than the sequence entry and every id the table held before
    the run; a row held at the end has an id that was there at the start or
    was handed out by a create of the run; an update, whatever it is,
    leaves the id column as it is; and the id of a further create is none
    of the ids present at the start, handed out during the run, or
    present now, whatever was deleted on the way. *)
Theorem ids_assigned_once_increasing (d : db)
    (rqs : list (option string * request)) :
  well_formed d ->
  let d' := fst (serve to_integer to_real real_text d rqs) in
  let tr := snd (serve to_integer to_real real_text d rqs) in
  NoDup (ids d') /\
  StronglySorted Z.lt (created_ids tr) /\
  Forall (fun n => sqlite_sequence d < n /\ Forall (fun m => m < n) (ids d))
         (created_ids tr) /\
  (forall x, In x (ids d') -> In x (ids d) \/ In x (created_ids tr)) /\
  (forall fault id b,
     ids (fst (put_tasks_id to_integer to_real real_text fault d' id b))
     = ids d') /\
  (forall fault b n,
     created_id (POST_tasks b,
                 snd (post_tasks to_integer to_real real_text fault d' b))
       = Some n ->
     ~ In n (ids d) /\ ~ In n (created_ids tr) /\ ~ In n (ids d')).
Proof.
  intros Hwf d' tr.
  destruct (serve_invariant rqs d Hwf) as (Hwf' & Hseq & Hsorted & Hrange & Hin).
  fold d' tr in Hwf', Hseq, Hsorted, Hrange, Hin.
  pose proof Hwf as (_ & Hle & _). pose proof Hwf' as (Hs' & Hle' & _).
  split; [apply sorted_NoDup; exact Hs'|].
  split; [exact Hsorted|].
  split.
  { eapply Forall_impl; [|exact Hrange]. cbn. intros n Hn.
    split; [lia|]. eapply Forall_impl; [|exact Hle]. cbn. intros; lia. }
  split; [exact Hin|].
  split.
  { intros fault id b.
    exact (proj1 (put_keeps_ids fault d' id b)). }
  intros fault b n Hn.
  pose proof (handle_step d' fault (POST_tasks b) Hwf') as Hstep.
  cbv zeta in Hstep. cbn [handle] in Hstep.
  destruct Hstep as (_ & _ & Hnew & _). destruct (Hnew n Hn) as [Hn1 _].
  rewrite Forall_forall in Hle, Hle', Hrange.
  repeat split; intros H.
  - specialize (Hle n H). lia.
  - specialize (Hrange n H). cbn in Hrange. lia.
  - specialize (Hle' n H). lia.
Qed.

End Properties.

(** * Concrete runs *)




Lemma create_echoes_and_initialises_witness :
  post_tasks decimal_integer no_fraction integral_real_text None empty_db
    buy_milk =
    (mkDb [mkTask 1 (SqlText "Buy milk") SqlNull (SqlInteger 0)] 1,
     mkResponse 200 (JObj [ ("id", JNum 1);
                            ("title", JStr "Buy milk");
                            ("description", JUndefined);
                            ("completed", JBool false) ])).
Proof.
  assert (has_room empty_db) as Hroom
    by (unfold has_room; vm_compute; reflexivity).
  exact (proj1 (create_echoes_and_initialises decimal_integer no_fraction
                  integral_real_text empty_db buy_milk) eq_refl Hroom).
Defined.

(** C2, as stated, fails: a create request without a title is not
    answered with the new id and the submitted fields but with status 500
    and the engine's message, and no task is created. *)
Lemma create_echo_counterexample :
  post_tasks decimal_integer no_fraction integral_real_text None empty_db
    (mkBody JUndefined (JStr "2%") (JBool true))
  = (empty_db,
     mkResponse 500 (JObj [("error", JStr not_null_title)])).
Proof. vm_compute. reflexivity. Qed.

Lemma create_without_title_is_refused_witness :
  exists e,
    post_tasks decimal_integer no_fraction integral_real_text None empty_db
      (mkBody JUndefined (JStr "2%") JUndefined) =
      (empty_db, mkResponse 500 (JObj [("error", JStr e)])) /\
    (@None string = None -> has_room empty_db -> e = not_null_title).
Proof.
  apply (create_without_title_is_refused decimal_integer no_fraction
           integral_real_text None empty_db
           (mkBody JUndefined (JStr "2%") JUndefined)).
  reflexivity.
Defined.

(** C4, as stated, fails: a create without a title on an empty table is
    answered with status 500 and nothing is persisted. *)
Lemma create_without_title_counterexample :
  let (d', rs) := post_tasks decimal_integer no_fraction integral_real_text
                    None empty_db
                    (mkBody JUndefined (JStr "2%") JUndefined) in
  status rs = 500 /\
  payload rs = JObj [("error", JStr not_null_title)] /\
  tasks d' = [].
Proof. vm_compute. repeat split. Qed.



Lemma missing_id_is_not_found_witness :
  get_tasks_id decimal_integer None one_task "abc" =
    (one_task, mkResponse 404 not_found) /\
  put_tasks_id decimal_integer no_fraction integral_real_text None one_task
    "abc" buy_milk_2 =
    (one_task, mkResponse 404 not_found) /\
  delete_tasks_id decimal_integer None one_task "abc" =
    (one_task, mkResponse 404 not_found).
Proof.
  refine (proj2 (missing_id_is_not_found decimal_integer no_fraction
                   integral_real_text None one_task "abc" buy_milk_2 _)).
  constructor; [vm_compute; discriminate | constructor].
Defined.

Lemma delete_removes_task_witness :
  exists d',
    delete_tasks_id decimal_integer None one_task "1" = (d', res_json deleted) /\
    tasks d' = [] /\
    get_tasks_id decimal_integer None d' "1" =
      (d', mkResponse 404 not_found).
Proof.
  destruct (delete_removes_task decimal_integer one_task
              (mkTask 1 (SqlText "Buy milk") (SqlText "2%") (SqlInteger 1))
              "1") as (d' & Hdel & Htasks & Hget & _).
  - left. reflexivity.
  - reflexivity.
  - exists d'. split; [exact Hdel|]. split; [exact Htasks | exact Hget].
Defined.



Lemma empty_db_well_formed : well_formed empty_db.
Proof. unfold well_formed. cbn. repeat constructor. lia. Qed.

Lemma ids_assigned_once_increasing_witness :
  let d0 := create_table_if_not_exists None in
  let d' := fst (serve decimal_integer no_fraction integral_real_text d0
                   scenario) in
  let tr := snd (serve decimal_integer no_fraction integral_real_text d0
                   scenario) in
  NoDup (ids d') /\
  StronglySorted Z.lt (created_ids tr) /\
  created_ids tr = [1; 2] /\
  ids d' = [2].
Proof.
  destruct (ids_assigned_once_increasing decimal_integer no_fraction
              integral_real_text (create_table_if_not_exists None) scenario)
    as (Hnodup & Hsorted & _).
  - exact empty_db_well_formed.
  - cbv zeta. split; [exact Hnodup|]. split; [exact Hsorted|].
    split; reflexivity.
Defined.

(** The decimal text of an id is read back as that id, so a client that
    writes the id of a create response into the path addresses the row. *)
Lemma decimal_integer_text (n : Z) :
  decimal_integer (integer_text n) = Some n.
Proof.
  unfold decimal_integer, integer_text.
  rewrite NilZero.isi.
  - cbn. f_equal. apply DecimalZ.of_to.
  - destruct n as [|q|q]; cbn; try discriminate.
    intros [= H]. exact (DecimalPos.Unsigned.to_uint_nonnil q H).
  - destruct n as [|q|q]; cbn; try discriminate.
    intros [= H]. exact (DecimalPos.Unsigned.to_uint_nonnil q H).
Qed.

(** A number outside the 32-bit range is bound as a REAL, so as a title
    it is stored, and read back, as the text of a REAL, while the create
    response echoes the number. *)
Lemma large_number_title :
  let b := mkBody (JNum 5000000000) JUndefined JUndefined in
  let d' := fst (post_tasks decimal_integer no_fraction integral_real_text
                   None empty_db b) in
  map task_title (tasks d') = [SqlText "5000000000.0"] /\
  snd (post_tasks decimal_integer no_fraction integral_real_text None
         empty_db b)
  = mkResponse 200 (JObj [ ("id", JNum 1);
                           ("title", JNum 5000000000);
                           ("description", JUndefined);
                           ("completed", JBool false) ]).
Proof. vm_compute. split; reflexivity. Qed.

(** * Further properties of the handlers *)

Section Composition.

Variable to_integer : string -> option Z.
Variable to_real : string -> option Q.
Variable real_text : Q -> string.

(** ** Facts about selections *)

Lemma existsb_filter {A} (f : A -> bool) (l : list A) :
  existsb f l = match filter f l with [] => false | _ :: _ => true end.
Proof.
  induction l as [|x l IH]; [reflexivity|]. cbn [existsb filter].
  destruct (f x); [reflexivity | exact IH].
Qed.

Lemma present_false d p :
  present to_integer d p = false ->
  filter (id_equals to_integer (SqlText p)) (tasks d) = [].
Proof.
  unfold present. rewrite existsb_filter.
  destruct (filter _ _); [reflexivity | discriminate].
Qed.

Lemma present_true d p :
  present to_integer d p = true ->
  filter (id_equals to_integer (SqlText p)) (tasks d) <> [].
Proof.
  unfold present. rewrite existsb_filter.
  destruct (filter _ _); [discriminate | discriminate].
Qed.

(** In rowid order a select by id finds one row at most. *)
Lemma select_unique rows p r :
  StronglySorted Z.lt (map task_id rows) -> In r rows ->
  to_integer p = Some (task_id r) ->
  filter (id_equals to_integer (SqlText p)) rows = [r].
Proof.
  induction rows as [|x rows IH]; [easy|]. cbn [map]. intros Hs Hin Hp.
  apply StronglySorted_inv in Hs. destruct Hs as [Hs Hx].
  rewrite Forall_forall in Hx. cbn [filter].
  rewrite (id_equals_denotes to_integer p _ x Hp).
  destruct Hin as [->|Hin].
  - rewrite Z.eqb_refl. f_equal. apply filter_none. intros y Hy.
    rewrite (id_equals_denotes to_integer p _ y Hp). apply Z.eqb_neq.
    specialize (Hx (task_id y) (in_map task_id rows y Hy)). lia.
  - destruct (Z.eqb_spec (task_id x) (task_id r)) as [E|E].
    + specialize (Hx (task_id r) (in_map task_id rows r Hin)). lia.
    + apply IH; assumption.
Qed.

(** X1. In a database that only this service has written, every task of
    the table is read back, by a path the engine reads as its id, as
    exactly the object the list shows for it, and the list shows no other
    object with that id. *)
Theorem read_agrees_with_list (d : db) (r : task) (p : string) :
  well_formed d -> In r (tasks d) -> to_integer p = Some (task_id r) ->
  get_tasks_id to_integer None d p = (d, mkResponse 200 (JObj (js_row r))) /\
  exists rows,
    get_tasks None d = (d, mkResponse 200 (JArr rows)) /\
    In (js_row r) rows /\
    (forall o, In o rows -> prop "id" o = JNum (task_id r) -> o = js_row r).
Proof.
  intros (Hsorted & _) Hin Hp.
  pose proof (select_unique (tasks d) p r Hsorted Hin Hp) as Hsel.
  split.
  - unfold get_tasks_id, db_get, sql_select_by_id. cbn [nth bind].
    rewrite Hsel. reflexivity.
  - eexists. split; [reflexivity|]. cbn [sql_select_all]. split.
    + apply in_map. exact Hin.
    + intros o Ho Hid. apply in_map_iff in Ho. destruct Ho as (x & <- & Hx).
      cbn in Hid. injection Hid as Hid. f_equal.
      assert (In x (filter (id_equals to_integer (SqlText p)) (tasks d))) as H.
      { apply filter_In. split; [exact Hx|].
        rewrite (id_equals_denotes to_integer p _ x Hp). apply Z.eqb_eq.
        exact Hid. }
      rewrite Hsel in H. destruct H as [H|[]]. symmetry. exact H.
Qed.

(** X2. Without an engine error the status of a read and of a delete is
    decided by whether a row of that id is in the table (200 if so, 404 if
    not), and the status of an update by that and by its title: 404 when
    no row has the id, 500 when one has and the title is absent or null,
    200 otherwise. *)
Theorem status_by_presence (d : db) (p : string) (b : body) :
  status (snd (get_tasks_id to_integer None d p))
    = (if present to_integer d p then 200 else 404) /\
  status (snd (delete_tasks_id to_integer None d p))
    = (if present to_integer d p then 200 else 404) /\
  status (snd (put_tasks_id to_integer to_real real_text None d p b))
    = (if present to_integer d p
       then if is_null (bind (body_title b)) then 500 else 200
       else 404).
Proof.
  destruct (present to_integer d p) eqn:Hpres.
  - pose proof (present_true d p Hpres) as Hhit. repeat split.
    + unfold get_tasks_id, db_get, sql_select_by_id. cbn [nth bind].
      destruct (filter _ _); [contradiction | reflexivity].
    + unfold delete_tasks_id, db_run_delete, sql_delete. cbn [bind].
      destruct (filter (id_equals to_integer (SqlText p)) (tasks d))
        as [|x hit]; [contradiction|].
      cbn [List.length].
      destruct (Z.eqb_spec (Z.of_nat (S (List.length hit))) 0); [lia|].
      reflexivity.
    + unfold put_tasks_id, db_run_update. cbn [nth bind].
      destruct (is_null (bind (body_title b))) eqn:Ht.
      * rewrite (sql_update_refused to_integer to_real real_text d _ _ _ _ Hhit Ht). reflexivity.
      * destruct (sql_update_hit to_integer to_real real_text d (bind (body_title b))
                    (bind (body_description b)) (bind (body_completed b))
                    (SqlText p) Hhit Ht) as (n & Hn & Hupd).
        rewrite Hupd. destruct (Z.eqb_spec n 0); [lia | reflexivity].
  - pose proof (present_false d p Hpres) as Hnone. repeat split.
    + unfold get_tasks_id, db_get, sql_select_by_id. cbn [nth bind].
      rewrite Hnone. reflexivity.
    + unfold delete_tasks_id, db_run_delete. cbn [bind].
      rewrite (sql_delete_miss to_integer d _ Hnone). reflexivity.
    + unfold put_tasks_id, db_run_update. cbn [nth bind].
      rewrite (sql_update_miss to_integer to_real real_text d _ _ _ _ Hnone). reflexivity.
Qed.

(** ** Responses and failed requests *)

(** X3. Whatever the request, the database and the engine's behaviour,
    the status of the response is 200, 404 or 500; the list and the create
    never answer 404. *)
Theorem status_is_200_404_or_500 (d : db) (fault : option string)
    (rq : request) :
  let s := status (snd (handle to_integer to_real real_text d fault rq)) in
  (s = 200 \/ s = 404 \/ s = 500) /\
  match rq with
  | GET_tasks | POST_tasks _ => s <> 404
  | _ => True
  end.
Proof.
  destruct rq as [|b|id|id b|id]; cbn [handle].
  - unfold get_tasks. destruct (db_all fault d); cbn; split; auto; discriminate.
  - unfold post_tasks.
    destruct (db_run_insert _ _ _ _) as [d1 [e|n]]; cbn; split; auto;
      discriminate.
  - unfold get_tasks_id.
    destruct (db_get _ _ _ _) as [e|[row|]]; cbn; split; auto.
  - unfold put_tasks_id.
    destruct (db_run_update _ _ _ _) as [d1 [e|n]]; [cbn; split; auto|].
    destruct (n =? 0); cbn; split; auto.
  - unfold delete_tasks_id.
    destruct (db_run_delete _ _ _ _) as [d1 [e|n]]; [cbn; split; auto|].
    destruct (n =? 0); cbn; split; auto.
Qed.

Lemma sql_insert_refused d t s c d1 e :
  sql_insert to_integer to_real real_text d t s c = (d1, Failed e) -> d1 = d.
Proof.
  unfold sql_insert. destruct (max_rowid <=? _); [intros [= <- _]; reflexivity|].
  destruct (is_null _); [intros [= <- _]; reflexivity | discriminate].
Qed.

Lemma sql_update_refused_same d t s c v d1 e :
  sql_update to_integer to_real real_text d t s c v = (d1, Failed e) -> d1 = d.
Proof.
  unfold sql_update. destruct (filter _ _); [discriminate|].
  destruct (is_null _); [intros [= <- _]; reflexivity | discriminate].
Qed.

Lemma sql_update_zero d t s c v d1 :
  sql_update to_integer to_real real_text d t s c v = (d1, Done 0) -> d1 = d.
Proof.
  unfold sql_update. destruct (filter _ _) as [|x hit];
    [intros [= <-]; reflexivity|].
  destruct (is_null _); [discriminate|].
  intros H. exfalso. inversion H; lia.
Qed.

Lemma sql_delete_zero d v d1 :
  sql_delete to_integer d v = (d1, Done 0) -> d1 = d.
Proof.
  unfold sql_delete.
  destruct (filter (id_equals to_integer v) (tasks d)) as [|x hit] eqn:Hhit.
  - intros [= <-]. pose proof (sql_delete_miss to_integer d v Hhit) as H.
    unfold sql_delete in H. rewrite Hhit in H. injection H as H. exact H.
  - intros H. exfalso. inversion H; lia.
Qed.

(** X4. A request that is not answered 200 has changed nothing: whenever
    the status of the response is 404 or 500, the database after the
    request is the database before it.  The reads never change it. *)
Theorem failed_request_changes_nothing (d : db) (fault : option string)
    (rq : request) :
  (status (snd (handle to_integer to_real real_text d fault rq)) <> 200 ->
   fst (handle to_integer to_real real_text d fault rq) = d) /\
  match rq with
  | GET_tasks | GET_tasks_id _ =>
      fst (handle to_integer to_real real_text d fault rq) = d
  | _ => True
  end.
Proof.
  destruct rq as [|b|id|id b|id]; cbn [handle].
  - unfold get_tasks. destruct (db_all fault d); cbn; auto.
  - split; [|exact I]. unfold post_tasks, db_run_insert. cbn [nth].
    destruct fault as [e|]; [reflexivity|].
    destruct (sql_insert _ _ _ _ _) as [d1 [e|n]] eqn:Hins.
    + intros _. exact (sql_insert_refused _ _ _ _ _ _ Hins).
    + cbn. intros H. contradiction H. reflexivity.
  - unfold get_tasks_id. destruct (db_get _ _ _ _) as [e|[row|]]; cbn; auto.
  - split; [|exact I]. unfold put_tasks_id, db_run_update. cbn [nth bind].
    destruct fault as [e|]; [reflexivity|].
    destruct (sql_update _ _ _ _ _ _) as [d1 [e|n]] eqn:Hupd.
    + intros _. exact (sql_update_refused_same _ _ _ _ _ _ _ Hupd).
    + destruct (Z.eqb_spec n 0) as [->|Hn]; cbn.
      * intros _. exact (sql_update_zero _ _ _ _ _ _ Hupd).
      * intros H. contradiction H. reflexivity.
  - split; [|exact I]. unfold delete_tasks_id, db_run_delete. cbn [bind].
    destruct fault as [e|]; [reflexivity|].
    destruct (sql_delete _ _ _) as [d1 [e|n]] eqn:Hdel.
    + unfold sql_delete in Hdel. discriminate.
    + destruct (Z.eqb_spec n 0) as [->|Hn]; cbn.
      * intros _. exact (sql_delete_zero _ _ _ Hdel).
      * intros H. contradiction H. reflexivity.
Qed.

(** ** What every run keeps *)

Lemma handle_titled d fault rq :
  titled d -> titled (fst (handle to_integer to_real real_text d fault rq)).
Proof.
  unfold titled. intros Ht.
  destruct rq as [|b|id|id b|id]; cbn [handle].
  - unfold get_tasks. destruct (db_all fault d); exact Ht.
  - unfold post_tasks, db_run_insert. cbn [nth].
    destruct fault as [e|]; [exact Ht|]. unfold sql_insert.
    destruct (max_rowid <=? _); [exact Ht|].
    destruct (is_null (text_affinity real_text (bind (body_title b)))) eqn:E; [exact Ht|].
    cbn [fst tasks]. apply Forall_app. split; [exact Ht|].
    constructor; [exact E | constructor].
  - unfold get_tasks_id. destruct (db_get _ _ _ _) as [e|[row|]]; exact Ht.
  - unfold put_tasks_id, db_run_update. cbn [nth bind].
    destruct fault as [e|]; [exact Ht|]. unfold sql_update.
    destruct (filter _ _) as [|x hit]; [exact Ht|].
    destruct (is_null (text_affinity real_text (bind (body_title b)))) eqn:E; [exact Ht|].
    match goal with |- context [?c =? 0] => destruct (c =? 0) end;
      cbn [fst tasks]; rewrite Forall_forall in *; intros r Hr;
      apply in_map_iff in Hr; destruct Hr as (y & <- & Hy);
      (destruct (id_equals to_integer (SqlText id) y);
       [exact E | exact (Ht y Hy)]).
  - unfold delete_tasks_id, db_run_delete, sql_delete. cbn [bind].
    destruct fault as [e|]; [exact Ht|]. cbv beta iota zeta.
    match goal with |- context [?c =? 0] => destruct (c =? 0) end;
      cbn [fst tasks]; rewrite Forall_forall in *; intros r Hr;
      apply filter_In in Hr; exact (Ht r (proj1 Hr)).
Qed.

(** X5. Start from a database whose rows lie in increasing id order below
    the sequence entry and all have a title, as the empty table does, and
    let the service handle any sequence of requests, engine errors
    included.  The database reached is again such a database: the list
    then returns the tasks in strictly increasing id order, and none of
    them has a null title. *)
Theorem run_keeps_table_invariants (d : db)
    (rqs : list (option string * request)) :
  well_formed d -> titled d ->
  let d' := fst (serve to_integer to_real real_text d rqs) in
  well_formed d' /\ titled d' /\
  exists rows,
    get_tasks None d' = (d', mkResponse 200 (JArr rows)) /\
    map (prop "id") rows = map JNum (ids d') /\
    StronglySorted Z.lt (ids d') /\
    Forall (fun o => prop "title" o <> JNull) rows.
Proof.
  intros Hwf Ht d'.
  assert (titled d') as Ht'.
  { subst d'. revert d Hwf Ht.
    induction rqs as [|[fault rq] rest IH]; intros d Hwf Ht; [exact Ht|].
    cbn [serve].
    pose proof (handle_titled d fault rq Ht) as Ht1.
    pose proof (handle_step to_integer to_real real_text d fault rq Hwf) as (Hwf1 & _).
    destruct (handle to_integer to_real real_text d fault rq) as [d1 rs]. cbn [fst] in Ht1, Hwf1.
    specialize (IH d1 Hwf1 Ht1).
    destruct (serve to_integer to_real real_text d1 rest) as [d2 tr]. exact IH. }
  destruct (serve_invariant to_integer to_real real_text rqs d Hwf) as (Hwf' & _).
  fold d' in Hwf'.
  split; [exact Hwf'|]. split; [exact Ht'|].
  eexists. split; [reflexivity|]. cbn [sql_select_all].
  split; [|split; [exact (proj1 Hwf')|]].
  - unfold ids. rewrite !map_map. reflexivity.
  - unfold titled in Ht'. rewrite Forall_forall in *. intros o Ho.
    apply in_map_iff in Ho. destruct Ho as (r & <- & Hr).
    specialize (Ht' r Hr). cbn. destruct (task_title r) as [|n|x|t];
      cbn in *; try discriminate.
    destruct (integer_of x); discriminate.
Qed.

(** ** Updates and deletes in sequence *)

Lemma filter_map_same_id v (f : task -> task) rows :
  (forall r, task_id (f r) = task_id r) ->
  filter (id_equals to_integer v) (map f rows)
  = map f (filter (id_equals to_integer v) rows).
Proof.
  intros Hid. induction rows as [|x rows IH]; [reflexivity|].
  cbn [map filter].
  rewrite (id_equals_same_id to_integer v (f x) x (Hid x)).
  destruct (id_equals to_integer v x); cbn [map]; rewrite IH; reflexivity.
Qed.

(** An accepted update on top of any update of the same id. *)
Lemma sql_update_over d t1 s1 c1 t2 s2 c2 v :
  is_null t2 = false ->
  sql_update to_integer to_real real_text (fst (sql_update to_integer to_real real_text d t1 s1 c1 v)) t2 s2 c2 v
  = sql_update to_integer to_real real_text d t2 s2 c2 v.
Proof.
  intros Ht2. unfold sql_update at 2.
  destruct (filter (id_equals to_integer v) (tasks d)) as [|x hit] eqn:Hhit;
    [reflexivity|].
  destruct (is_null (text_affinity real_text t1)); [reflexivity|].
  cbn [fst]. unfold sql_update. cbn [tasks sqlite_sequence].
  rewrite filter_map_same_id
    by (intros r; destruct (id_equals to_integer v r); reflexivity).
  rewrite Hhit. cbn [map]. rewrite is_null_text_affinity, Ht2.
  cbn [List.length]. rewrite length_map. f_equal. f_equal.
  rewrite map_map. apply map_ext. intros r.
  destruct (id_equals to_integer v r) eqn:E.
  - rewrite (id_equals_same_id to_integer v (set_columns to_integer to_real real_text t1 s1 c1 r)
               r eq_refl), E. reflexivity.
  - rewrite E. reflexivity.
Qed.

(** X6. Updates of one id compose by last write: an update that supplies
    a title, sent after any other update of the same id, leaves the same
    database and gets the same response as if it had been sent alone.  And
    sending any update a second time changes nothing more and gets the
    same response again. *)
Theorem update_last_write_wins (d : db) (p : string) (b1 b2 : body) :
  (is_null (bind (body_title b2)) = false ->
   put_tasks_id to_integer to_real real_text None
     (fst (put_tasks_id to_integer to_real real_text None d p b1)) p b2
   = put_tasks_id to_integer to_real real_text None d p b2) /\
  put_tasks_id to_integer to_real real_text None
    (fst (put_tasks_id to_integer to_real real_text None d p b1)) p b1
  = put_tasks_id to_integer to_real real_text None d p b1.
Proof.
  assert (forall b, fst (put_tasks_id to_integer to_real real_text None d p b)
                    = fst (sql_update to_integer to_real real_text d (bind (body_title b))
                             (bind (body_description b))
                             (bind (body_completed b)) (SqlText p))) as Hfst.
  { intros b. unfold put_tasks_id, db_run_update. cbn [nth bind].
    destruct (sql_update _ _ _ _ _ _) as [d1 [e|n]]; [reflexivity|].
    destruct (n =? 0); reflexivity. }
  assert (forall b, is_null (bind (body_title b)) = false ->
            put_tasks_id to_integer to_real real_text None
              (fst (put_tasks_id to_integer to_real real_text None d p b1)) p b
            = put_tasks_id to_integer to_real real_text None d p b) as Hover.
  { intros b Hb. rewrite Hfst. unfold put_tasks_id, db_run_update.
    cbn [nth bind]. rewrite (sql_update_over d _ _ _ _ _ _ _ Hb).
    reflexivity. }
  split; [exact (Hover b2)|].
  destruct (is_null (bind (body_title b1))) eqn:Ht1; [|exact (Hover b1 Ht1)].
  replace (fst (put_tasks_id to_integer to_real real_text None d p b1)) with d; [reflexivity|].
  rewrite Hfst. unfold sql_update.
  destruct (filter _ _); [reflexivity|].
  rewrite is_null_text_affinity, Ht1. reflexivity.
Qed.

(** X7. A delete sent again finds nothing: whatever the first delete did,
    the second is answered 404 and leaves the database as the first left
    it. *)
Theorem delete_twice (d : db) (p : string) :
  delete_tasks_id to_integer None
    (fst (delete_tasks_id to_integer None d p)) p
  = (fst (delete_tasks_id to_integer None d p),
     mkResponse 404 (JObj [("message", JStr "Tarea no encontrada")])).
Proof.
  assert (fst (delete_tasks_id to_integer None d p)
          = mkDb (filter (fun r => negb (id_equals to_integer (SqlText p) r))
                    (tasks d)) (sqlite_sequence d)) as ->.
  { unfold delete_tasks_id, db_run_delete, sql_delete. cbn [bind].
    cbv beta iota zeta.
    match goal with |- context [?c =? 0] => destruct (c =? 0) end;
      reflexivity. }
  unfold delete_tasks_id, db_run_delete. cbn [bind].
  rewrite sql_delete_miss; [reflexivity|]. cbn [tasks].
  apply filter_none. intros r Hr. apply filter_In in Hr.
  destruct Hr as [_ Hr]. destruct (id_equals to_integer (SqlText p) r);
    [discriminate | reflexivity].
Qed.

(** ** What a write leaves alone *)

Lemma other_id_not_selected p q r :
  to_integer p <> to_integer q ->
  id_equals to_integer (SqlText q) r = true ->
  id_equals to_integer (SqlText p) r = false.
Proof.
  intros Hpq Hq. apply id_equals_text in Hq.
  destruct (id_equals to_integer (SqlText p) r) eqn:Hp; [|reflexivity].
  apply id_equals_text in Hp. congruence.
Qed.

Lemma select_other_after_update p q (f : task -> task) rows :
  to_integer p <> to_integer q ->
  (forall r, task_id (f r) = task_id r) ->
  filter (id_equals to_integer (SqlText q))
    (map (fun r => if id_equals to_integer (SqlText p) r then f r else r) rows)
  = filter (id_equals to_integer (SqlText q)) rows.
Proof.
  intros Hpq Hid. induction rows as [|x rows IH]; [reflexivity|].
  cbn [map filter]. rewrite IH.
  destruct (id_equals to_integer (SqlText p) x) eqn:Hp; [|reflexivity].
  rewrite (id_equals_same_id to_integer (SqlText q) (f x) x (Hid x)).
  destruct (id_equals to_integer (SqlText q) x) eqn:Hq; [|reflexivity].
  rewrite (other_id_not_selected p q x Hpq Hq) in Hp. discriminate.
Qed.

Lemma select_other_after_delete p q rows :
  to_integer p <> to_integer q ->
  filter (id_equals to_integer (SqlText q))
    (filter (fun r => negb (id_equals to_integer (SqlText p) r)) rows)
  = filter (id_equals to_integer (SqlText q)) rows.
Proof.
  intros Hpq. induction rows as [|x rows IH]; [reflexivity|].
  cbn [filter].
  destruct (id_equals to_integer (SqlText q) x) eqn:Hq.
  - rewrite (other_id_not_selected p q x Hpq Hq). cbn [negb filter].
    rewrite Hq, IH. reflexivity.
  - destruct (id_equals to_integer (SqlText p) x); cbn [negb filter];
      [exact IH | rewrite Hq; exact IH].
Qed.

(** X8. An update or a delete of one id, accepted or not, does not change
    what a read of another id answers: when the engine reads the two paths
    differently, the read of the second gives the same response after the
    write as before it. *)
Theorem write_leaves_other_reads (d : db) (fault : option string)
    (p q : string) (b : body) :
  to_integer p <> to_integer q ->
  snd (get_tasks_id to_integer None
         (fst (put_tasks_id to_integer to_real real_text fault d p b)) q)
    = snd (get_tasks_id to_integer None d q) /\
  snd (get_tasks_id to_integer None
         (fst (delete_tasks_id to_integer fault d p)) q)
    = snd (get_tasks_id to_integer None d q).
Proof.
  intros Hpq.
  assert (forall d1,
            filter (id_equals to_integer (SqlText q)) (tasks d1)
            = filter (id_equals to_integer (SqlText q)) (tasks d) ->
            snd (get_tasks_id to_integer None d1 q)
            = snd (get_tasks_id to_integer None d q)) as Hread.
  { intros d1 H. unfold get_tasks_id, db_get, sql_select_by_id.
    cbn [nth bind]. rewrite H.
    destruct (hd_error _) as [r|]; reflexivity. }
  split; apply Hread.
  - unfold put_tasks_id, db_run_update. cbn [nth bind].
    destruct fault as [e|]; [reflexivity|]. unfold sql_update.
    destruct (filter (id_equals to_integer (SqlText p)) (tasks d));
      [reflexivity|].
    destruct (is_null _); [reflexivity|].
    match goal with |- context [?c =? 0] => destruct (c =? 0) end;
      cbn [fst tasks];
      apply (select_other_after_update p q _ (tasks d) Hpq); reflexivity.
  - unfold delete_tasks_id, db_run_delete, sql_delete. cbn [bind].
    destruct fault as [e|]; [reflexivity|]. cbv beta iota zeta.
    match goal with |- context [?c =? 0] => destruct (c =? 0) end;
      cbn [fst tasks]; apply (select_other_after_delete p q (tasks d) Hpq).
Qed.

(** X9. A create, accepted or not, keeps every row of the table at its
    place and adds one row at most, at the end; a read that found a task
    before the create gets the same response after it. *)
Theorem create_keeps_existing (d : db) (fault : option string) (b : body)
    (q : string) :
  let d1 := fst (post_tasks to_integer to_real real_text fault d b) in
  firstn (List.length (tasks d)) (tasks d1) = tasks d /\
  (List.length (tasks d1) <= S (List.length (tasks d)))%nat /\
  (present to_integer d q = true ->
   snd (get_tasks_id to_integer None d1 q)
   = snd (get_tasks_id to_integer None d q)).
Proof.
  assert (fst (post_tasks to_integer to_real real_text fault d b) = d \/
          exists r, tasks (fst (post_tasks to_integer to_real real_text fault d b))
                    = tasks d ++ [r]) as [->|[r Hr]].
  { unfold post_tasks, db_run_insert. cbn [nth].
    destruct fault as [e|]; [left; reflexivity|]. unfold sql_insert.
    destruct (max_rowid <=? _); [left; reflexivity|].
    destruct (is_null _); [left; reflexivity|].
    right. eexists. reflexivity. }
  - cbv zeta. split; [apply firstn_all|]. split; [lia | reflexivity].
  - cbv zeta. rewrite Hr. split; [|split].
    + rewrite firstn_app, firstn_all, Nat.sub_diag. cbn. apply app_nil_r.
    + rewrite length_app. cbn. lia.
    + intros Hq. apply present_true in Hq.
      unfold get_tasks_id, db_get, sql_select_by_id. cbn [nth bind].
      rewrite Hr, filter_app.
      destruct (filter (id_equals to_integer (SqlText q)) (tasks d));
        [contradiction | reflexivity].
Qed.

(** ** A batch of creates *)

Lemma post_accepted d b :
  well_formed d -> sqlite_sequence d < max_rowid ->
  is_null (bind (body_title b)) = false ->
  let n := sqlite_sequence d + 1 in
  post_tasks to_integer to_real real_text None d b =
    (mkDb (tasks d ++ [mkTask n (text_affinity real_text (bind (body_title b)))
                         (text_affinity real_text (bind (body_description b)))
                         (SqlInteger 0)]) n,
     mkResponse 200 (JObj [ ("id", JNum n);
                            ("title", body_title b);
                            ("description", body_description b);
                            ("completed", JBool false) ])).
Proof.
  intros Hwf Hroom Ht n. pose proof (well_formed_largest d Hwf) as Hlarge.
  unfold post_tasks, db_run_insert. cbn [nth].
  rewrite (sql_insert_done to_integer to_real real_text d _ _ _); [| |exact Ht].
  - rewrite (Z.max_l _ _ Hlarge). reflexivity.
  - unfold has_room. rewrite (Z.max_l _ _ Hlarge). exact Hroom.
Qed.

(** X10. On a database that only this service has written, a batch of N
    creates that all supply a title, with no engine error and room for N
    more rowids, is accepted one by one: every response is 200, the ids
    handed out are the N integers that follow the sequence entry, in
    order, the table ends with rows of exactly these ids after the rows
    it had, and the list then returns N entries more than before. *)
Theorem creates_then_list (bs : list body) : forall d : db,
  well_formed d ->
  Forall (fun b => is_null (bind (body_title b)) = false) bs ->
  sqlite_sequence d + Z.of_nat (List.length bs) <= max_rowid ->
  let run := serve to_integer to_real real_text d (map (fun b => (None, POST_tasks b)) bs) in
  let d' := fst run in
  Forall (fun ev => status (snd ev) = 200) (snd run) /\
  created_ids (snd run)
    = map (fun k => sqlite_sequence d + Z.of_nat k)
          (seq 1 (List.length bs)) /\
  ids d' = ids d ++ created_ids (snd run) /\
  sqlite_sequence d' = sqlite_sequence d + Z.of_nat (List.length bs) /\
  exists rows,
    get_tasks None d' = (d', mkResponse 200 (JArr rows)) /\
    List.length rows = (List.length (tasks d) + List.length bs)%nat.
Proof.
  induction bs as [|b bs IH]; intros d Hwf Hts Hroom.
  - cbv zeta. cbn [map serve fst snd created_ids List.length seq].
    split; [constructor|]. split; [reflexivity|].
    split; [rewrite app_nil_r; reflexivity|]. split; [cbn; lia|].
    eexists. split; [reflexivity|]. unfold sql_select_all.
    rewrite length_map. lia.
  - inversion Hts as [|? ? Hb Hbs]; subst. cbn [List.length] in Hroom.
    cbn [map serve handle].
    rewrite (post_accepted d b Hwf ltac:(lia) Hb).
    set (n := sqlite_sequence d + 1).
    set (r := mkTask n _ _ _).
    set (d1 := mkDb (tasks d ++ [r]) n).
    assert (well_formed d1) as Hwf1.
    { pose proof (handle_step to_integer to_real real_text d None (POST_tasks b) Hwf) as H.
      cbv zeta in H. cbn [handle] in H.
      rewrite (post_accepted d b Hwf ltac:(lia) Hb) in H. exact (proj1 H). }
    specialize (IH d1 Hwf1 Hbs). cbv zeta in IH.
    assert (sqlite_sequence d1 = n) as Hseq1 by reflexivity.
    rewrite Hseq1 in IH.
    specialize (IH ltac:(subst n; lia)).
    destruct (serve to_integer to_real real_text d1 (map (fun b0 => (None, POST_tasks b0)) bs))
      as [d2 tr].
    cbn [fst snd] in IH |- *.
    destruct IH as (Hst & Hids & Htab & Hseq & rows & Hlist & Hlen).
    split; [constructor; [reflexivity | exact Hst]|].
    cbn [created_ids created_id].
    assert (n :: created_ids tr
            = map (fun k => sqlite_sequence d + Z.of_nat k)
                  (seq 1 (List.length (b :: bs)))) as Hnew.
    { cbn [List.length seq map].
      replace (sqlite_sequence d + Z.of_nat 1) with n by (subst n; lia).
      f_equal. rewrite Hids, <- (seq_shift (List.length bs) 1), map_map.
      apply map_ext.
      intros k. subst n. lia. }
    split; [exact Hnew|]. split; [|split].
    + rewrite Htab. unfold ids. subst d1. cbn [tasks].
      rewrite map_app, <- app_assoc. reflexivity.
    + rewrite Hseq. subst n. cbn [List.length]. lia.
    + exists rows. split; [exact Hlist|]. rewrite Hlen. subst d1.
      cbn [tasks List.length]. rewrite length_app. cbn. lia.
Qed.

End Composition.

(** * Further concrete runs *)

Lemma one_task_well_formed : well_formed one_task.
Proof. unfold well_formed. cbn. repeat constructor; lia. Qed.

Lemma read_agrees_with_list_witness :
  get_tasks_id decimal_integer None one_task "1" =
    (one_task,
     mkResponse 200 (JObj [ ("id", JNum 1);
                            ("title", JStr "Buy milk");
                            ("description", JStr "2%");
                            ("completed", JNum 1) ])).
Proof.
  refine (proj1 (read_agrees_with_list decimal_integer one_task
                   (mkTask 1 (SqlText "Buy milk") (SqlText "2%")
                      (SqlInteger 1)) "1" _ _ _)).
  - exact one_task_well_formed.
  - left. reflexivity.
  - reflexivity.
Defined.

Lemma run_keeps_table_invariants_witness :
  let d' := fst (serve decimal_integer no_fraction integral_real_text
                   empty_db scenario) in
  well_formed d' /\ titled d' /\ ids d' = [2].
Proof.
  destruct (run_keeps_table_invariants decimal_integer no_fraction
              integral_real_text empty_db scenario)
    as (Hwf & Ht & _).
  - exact empty_db_well_formed.
  - constructor.
  - cbv zeta. split; [exact Hwf|]. split; [exact Ht | reflexivity].
Defined.

Lemma write_leaves_other_reads_witness :
  snd (get_tasks_id decimal_integer None
         (fst (put_tasks_id decimal_integer no_fraction integral_real_text
                 None one_task "2" buy_milk)) "1")
    = snd (get_tasks_id decimal_integer None one_task "1") /\
  snd (get_tasks_id decimal_integer None
         (fst (delete_tasks_id decimal_integer None one_task "2")) "1")
    = snd (get_tasks_id decimal_integer None one_task "1").
Proof.
  apply (write_leaves_other_reads decimal_integer no_fraction
              integral_real_text one_task None "2" "1"
           buy_milk).
  vm_compute. discriminate.
Defined.

Lemma creates_then_list_witness :
  let run := serve decimal_integer no_fraction integral_real_text empty_db
               [(None, POST_tasks buy_milk); (None, POST_tasks buy_milk_2)] in
  created_ids (snd run) = [1; 2] /\
  ids (fst run) = [1; 2] /\
  sqlite_sequence (fst run) = 2.
Proof.
  destruct (creates_then_list decimal_integer no_fraction
              integral_real_text [buy_milk; buy_milk_2] empty_db)
    as (_ & Hnew & Hids & Hseq & _).
  - exact empty_db_well_formed.
  - repeat constructor.
  - vm_compute. discriminate.
  - cbv zeta. split; [exact Hnew|]. split; [exact Hids | exact Hseq].
Defined.
